(** * EmbedderBase: the base embedder class of texar.tf

    A shallow embedding of [texar/tf/modules/embedders/embedder_base.py].
    The class keeps four attributes ([_num_embeds], [_embedding], [_dim],
    [_dim_rank]) on top of what [ModuleBase] keeps, and has three methods
    with behaviour of their own: the constructor, the construction of the
    embedding table with the shape metadata derived from it, and the
    configuration of the dropout layer.

    Methods are functions in a state-and-exception monad over the object's
    attributes: a Python exception leaves the attributes as they were when
    it was raised. *)

From Stdlib Require Import ZArith QArith String List Lia.
From stdpp Require Import base decidable option list.

Open Scope string_scope.

(** ** Python values *)

(** The exceptions the class can raise. *)
Inductive PyExn : Type :=
  | ValueError (msg : string)
  | AssertionError
  | AttributeError (attr : string)
  | IndexError
  | TypeError.

(** The values the attributes and the noise shape hold: [None], an [int],
    a tensor (a dimension known only when the graph runs) or a list. *)
#[warnings="-register-all"]
Inductive PyVal (T : Type) : Type :=
  | PNone
  | PInt (n : Z)
  | PTensor (t : T)
  | PList (l : list (PyVal T)).

Arguments PNone {T}.
Arguments PInt {T} n.
Arguments PTensor {T} t.
Arguments PList {T} l.

(** The hyperparameters the methods read from their [hparams] argument.
    [dropout_rate] is a finite Python number, kept as an exact rational:
    the class only compares it with zero and hands it on. *)
Module HParams.
Record t : Type := mk {
  trainable : bool;
  dropout_rate : Q;
  dropout_strategy : string
}.
End HParams.

Abbreviation HParams := HParams.t.

(** [tf.layers.Dropout(rate=..., noise_shape=...)]: the class only fixes
    the two arguments, the masking is the framework's. *)
Record Dropout (T : Type) : Type := mkDropout {
  rate : Q;
  noise_shape : PyVal T
}.

Arguments mkDropout {T} rate noise_shape.
Arguments rate {T} d.
Arguments noise_shape {T} d.

(** What a call does: it returns a value or raises. *)
Inductive Outcome (A : Type) : Type :=
  | Return (a : A)
  | Raise (e : PyExn).

Arguments Return {A} a.
Arguments Raise {A} e.

(** ** The collaborators

    [embedder_utils.get_embedding], [shape_list] and [ModuleBase] live in
    other files; the class uses them through this interface. *)
Class Collaborators : Type := {
  Tensor : Type;
  Tensor_eq_dec :: EqDecision Tensor;
  InitValue : Type;
  VariableScope : Type;
  ModuleHParams : Type;
  get_embedding :
    HParams -> option InitValue -> PyVal Tensor -> VariableScope -> Tensor;
  shape_list : Tensor -> list (PyVal Tensor);
  module_scope :
    option ModuleHParams -> list (string * string) -> VariableScope
}.

Section EmbedderBase.

Context `{Collaborators}.

Abbreviation Val := (PyVal Tensor).

(** ** The object

    [variable_scope] and [_trainable_variables] are the part of
    [ModuleBase] the class touches.  The three attributes that
    [_init_parameterized_embedding] defines outside [__init__] are absent
    ([None] here) until it has run. *)
Record EmbedderBase : Type := mkEmbedderBase {
  variable_scope : VariableScope;
  _trainable_variables : list Tensor;
  _num_embeds : Val;
  _embedding : option Tensor;
  _dim : option Val;
  _dim_rank : option nat
}.

Definition set_trainable_variables (v : list Tensor) (s : EmbedderBase) :=
  mkEmbedderBase (variable_scope s) v (_num_embeds s) (_embedding s)
                 (_dim s) (_dim_rank s).

Definition set_num_embeds (v : Val) (s : EmbedderBase) :=
  mkEmbedderBase (variable_scope s) (_trainable_variables s) v (_embedding s)
                 (_dim s) (_dim_rank s).

Definition set_embedding (v : Tensor) (s : EmbedderBase) :=
  mkEmbedderBase (variable_scope s) (_trainable_variables s) (_num_embeds s)
                 (Some v) (_dim s) (_dim_rank s).

Definition set_dim (v : Val) (s : EmbedderBase) :=
  mkEmbedderBase (variable_scope s) (_trainable_variables s) (_num_embeds s)
                 (_embedding s) (Some v) (_dim_rank s).

Definition set_dim_rank (v : nat) (s : EmbedderBase) :=
  mkEmbedderBase (variable_scope s) (_trainable_variables s) (_num_embeds s)
                 (_embedding s) (_dim s) (Some v).

(** ** Methods as state transformers that may raise *)

Definition Method (A : Type) : Type := EmbedderBase -> Outcome A * EmbedderBase.

Definition ret {A} (a : A) : Method A := fun s => (Return a, s).

Definition raise {A} (e : PyExn) : Method A := fun s => (Raise e, s).

Definition bind {A B} (k : A -> Method B) (m : Method A) : Method B :=
  fun s => match m s with
           | (Return a, s') => k a s'
           | (Raise e, s') => (Raise e, s')
           end.

#[local] Instance Method_ret : MRet Method := @ret.
#[local] Instance Method_bind : MBind Method := @bind.

(** [self.<attr>]: an attribute that has not been assigned yet raises. *)
Definition getattr {A} (name : string) (field : EmbedderBase -> option A)
  : Method A :=
  fun s => match field s with
           | Some a => (Return a, s)
           | None => (Raise (AttributeError name), s)
           end.

(** [self.<attr> = v] *)
Definition setattr (upd : EmbedderBase -> EmbedderBase) : Method unit :=
  fun s => (Return tt, upd s).

(** [l[i]] on a list, for [i >= 0]. *)
Definition list_getitem (l : list Val) (i : nat) : Method Val :=
  match l !! i with
  | Some v => ret v
  | None => raise IndexError
  end.

(** [v[i]] and [len(v)] on an attribute's value. *)
Definition py_getitem (v : Val) (i : nat) : Method Val :=
  match v with
  | PList l => list_getitem l i
  | _ => raise TypeError
  end.

Definition py_len (v : Val) : Method nat :=
  match v with
  | PList l => ret (length l)
  | _ => raise TypeError
  end.

(** [l[:k]]: a negative [k] counts from the end. *)
Definition slice_to (l : list Val) (k : Z) : list Val :=
  if (0 <=? k)%Z then take (Z.to_nat k) l
  else take (Z.to_nat (Z.of_nat (length l) + k)) l.

(** Modelled from the spec: [ModuleBase._add_trainable_variable], which is
    not in this file; it adds the variable to the module's trainable
    variables, once. *)
Definition _add_trainable_variable (v : Tensor) : Method unit :=
  fun s => (Return tt,
            if decide (v ∈ _trainable_variables s) then s
            else set_trainable_variables (_trainable_variables s ++ [v]) s).

(** [default_hparams()] *)
Definition default_hparams : list (string * string) :=
  [("name", "embedder")].

(** [__init__(self, num_embeds=None, hparams=None)].

    Modelled from the spec: [ModuleBase.__init__], which is not in this
    file; it opens the module's variable scope and starts with no trainable
    variable. *)
Definition __init__ (num_embeds : Val) (hparams : option ModuleHParams)
  : EmbedderBase :=
  mkEmbedderBase (module_scope hparams default_hparams) [] num_embeds
                 None None None.

(** [_init_parameterized_embedding(self, init_value, num_embeds, hparams)] *)
Definition _init_parameterized_embedding
    (init_value : option InitValue) (num_embeds : Val) (hparams : HParams)
  : Method unit :=
  fun self =>
  (setattr (set_embedding
      (get_embedding hparams init_value num_embeds (variable_scope self)));;
   (if HParams.trainable hparams
    then e ← getattr "_embedding" _embedding; _add_trainable_variable e
    else ret tt);;
   e ← getattr "_embedding" _embedding;
   n ← list_getitem (shape_list e) 0;
   setattr (set_num_embeds n);;
   e ← getattr "_embedding" _embedding;
   setattr (set_dim (PList (drop 1 (shape_list e))));;
   d ← getattr "_dim" _dim;
   r ← py_len d;
   setattr (set_dim_rank r);;
   r ← getattr "_dim_rank" _dim_rank;
   if decide (r = 1)
   then d ← getattr "_dim" _dim;
        d0 ← py_getitem d 0;
        setattr (set_dim d0)
   else ret tt) self.

(** [hparams.dropout_rate > 0.] *)
Definition rate_positive (hparams : HParams) : bool :=
  if Qlt_le_dec 0 (HParams.dropout_rate hparams) then true else false.

(** [_get_dropout_layer(self, hparams, ids_rank=None, dropout_input=None,
    dropout_strategy=None)] *)
Definition _get_dropout_layer
    (hparams : HParams) (ids_rank : option Z) (dropout_input : option Tensor)
    (dropout_strategy : option string)
  : Method (option (Dropout Tensor)) :=
  let dropout_layer := None in
  let st := dropout_strategy in
  let st := match st with
            | None => HParams.dropout_strategy hparams
            | Some st => st
            end in
  if rate_positive hparams then
    noise_shape ←
      (if (st =? "element")%string then ret PNone
       else if (st =? "item")%string then
         match dropout_input with
         | None => raise AssertionError  (* assert dropout_input is not None *)
         | Some x =>
           match ids_rank with
           | None => raise AssertionError  (* assert ids_rank is not None *)
           | Some k =>
             let prefix := slice_to (shape_list x) k in
             r ← getattr "_dim_rank" _dim_rank;
             ret (PList (prefix ++ replicate r (PInt 1)))
           end
         end
       else if (st =? "item_type")%string then
         r ← getattr "_dim_rank" _dim_rank;
         ret (PList ([PNone] ++ replicate r (PInt 1)))
       else
         raise (ValueError ("Unknown dropout strategy: " ++ st)));
    ret (Some (mkDropout (HParams.dropout_rate hparams) noise_shape))
  else ret dropout_layer.

(** The [num_embeds] property. *)
Definition num_embeds (self : EmbedderBase) : Val := _num_embeds self.

(** ** The class seen from outside: calls on an object

    A caller holds one object and calls its methods one after the other;
    a call that raises leaves the object as the exception found it. *)
Inductive Call : Type :=
  | call_init_parameterized_embedding
      (init_value : option InitValue) (n : Val) (hparams : HParams)
  | call_get_dropout_layer
      (hparams : HParams) (ids_rank : option Z) (dropout_input : option Tensor)
      (dropout_strategy : option string)
  | call_default_hparams
  | call_num_embeds.

Inductive Returned : Type :=
  | RNone
  | RLayer (layer : option (Dropout Tensor))
  | RDict (d : list (string * string))
  | RVal (v : Val).

Definition call (c : Call) : Method Returned :=
  match c with
  | call_init_parameterized_embedding init_value n hparams =>
      _init_parameterized_embedding init_value n hparams;; ret RNone
  | call_get_dropout_layer hparams ids_rank dropout_input dropout_strategy =>
      layer ← _get_dropout_layer hparams ids_rank dropout_input
                                 dropout_strategy;
      ret (RLayer layer)
  | call_default_hparams => ret (RDict default_hparams)
  | call_num_embeds => fun self => (Return (RVal (num_embeds self)), self)
  end.

Definition is_init_parameterized_embedding (c : Call) : bool :=
  match c with
  | call_init_parameterized_embedding _ _ _ => true
  | _ => false
  end.

Definition calls (cs : list Call) (self : EmbedderBase) : EmbedderBase :=
  foldl (fun s c => snd (call c s)) self cs.

(** The strategy names [_get_dropout_layer] knows. *)
Definition known_strategy (st : string) : Prop :=
  st = "element" \/ st = "item" \/ st = "item_type".

(** The strategy a call selects, as the caller sees it: the argument, or
    the hyperparameter when the argument is left out. *)
Definition selected (hparams : HParams) (dropout_strategy : option string)
  : string :=
  default (HParams.dropout_strategy hparams) dropout_strategy.

Definition with_strategy (st : string) (hparams : HParams) : HParams :=
  HParams.mk (HParams.trainable hparams) (HParams.dropout_rate hparams) st.

(** What the attributes written by [_init_parameterized_embedding] look
    like on any object: [_dim] and [_dim_rank] exist together, and only on
    an object that holds a table; [_dim] is a list of [_dim_rank] entries
    unless [_dim_rank] is one, where it is the entry itself. *)
Definition metadata_consistent (self : EmbedderBase) : Prop :=
  match _dim_rank self with
  | None => _dim self = None
  | Some r =>
      is_Some (_embedding self) /\
      exists d, _dim self = Some d /\
                (r <> 1 -> exists l, d = PList l /\ length l = r)
  end.

(** The outcome [_get_dropout_layer] has under the strategy [st] when the
    rate is positive, branch by branch. *)
Definition decided_by
    (st : string) (hparams : HParams) (ids_rank : option Z)
    (dropout_input : option Tensor) (self : EmbedderBase)
    (run : Outcome (option (Dropout Tensor)) * EmbedderBase) : Prop :=
  (st = "element" ->
   run = (Return (Some (mkDropout (HParams.dropout_rate hparams) PNone)),
          self)) /\
  (st = "item" ->
   (dropout_input = None \/ ids_rank = None ->
    run = (Raise AssertionError, self)) /\
   (forall x k r,
      dropout_input = Some x -> ids_rank = Some k ->
      _dim_rank self = Some r ->
      run = (Return (Some (mkDropout (HParams.dropout_rate hparams)
                      (PList (slice_to (shape_list x) k
                              ++ replicate r (PInt 1))))), self))) /\
  (st = "item_type" ->
   forall r,
     _dim_rank self = Some r ->
     run = (Return (Some (mkDropout (HParams.dropout_rate hparams)
                     (PList (PNone :: replicate r (PInt 1))))), self)) /\
  (~ known_strategy st ->
   run = (Raise (ValueError ("Unknown dropout strategy: " ++ st)), self)).

End EmbedderBase.

(** ** A framework of static shapes

    The smallest collaborators the class runs on: a tensor is its static
    shape, [get_embedding] returns a table shaped like the initial value
    when there is one and [num_embeds] rows of width 100 otherwise, and the
    variable scope is the module's name. *)
Definition static_get_embedding
    (hparams : HParams) (init_value : option (list Z)) (n : PyVal (list Z))
    (scope : string) : list Z :=
  match init_value with
  | Some shape => shape
  | None => [match n with PInt k => k | _ => 0%Z end; 100%Z]
  end.

Definition static_module_scope
    (hparams : option string) (defaults : list (string * string)) : string :=
  match hparams with
  | Some name => name
  | None => default "" (snd <$> head defaults)
  end.

Definition static_shapes : Collaborators := {|
  Tensor := list Z;
  InitValue := list Z;
  VariableScope := string;
  ModuleHParams := string;
  get_embedding := static_get_embedding;
  shape_list := map PInt;
  module_scope := static_module_scope
|}.

Module Example.

Definition hparams : HParams := HParams.mk true (1 # 2) "element".

Definition frozen : HParams := HParams.mk false 0 "element".

(** A word embedder of 10000 words in 300 dimensions, table built. *)
Definition embedder : @EmbedderBase static_shapes :=
  snd (@_init_parameterized_embedding static_shapes
         (Some [10000; 300]%Z) (PInt 10000) hparams (__init__ PNone None)).

(** The same embedder after a second construction of its table, from a
    scalar initial value. *)
Definition rebuilt : @EmbedderBase static_shapes :=
  calls [@call_init_parameterized_embedding static_shapes
           (Some [10000; 300]%Z) (PInt 10000) hparams;
         @call_init_parameterized_embedding static_shapes
           (Some []) (PInt 10000) hparams]
        (__init__ PNone None).

End Example.

(** ** Collaborators that refuse their arguments

    [get_embedding] above is the table the utility returns when it returns
    one.  The utility and [ModuleBase.__init__] also check what they are
    given, against the arguments and against what the framework already
    holds (the variables created so far), and raise when they refuse it;
    the class catches nothing, so the exception comes out of the method
    that made the call. *)
Class Refusals `{Collaborators} : Type := {
  Framework : Type;
  get_embedding_refuses :
    Framework -> HParams -> option InitValue -> PyVal Tensor ->
    VariableScope -> option PyExn;
  module_refuses :
    Framework -> option ModuleHParams -> list (string * string) ->
    option PyExn
}.

Section Refusing.

Context `{Refusals}.

(** [embedder_utils.get_embedding(hparams, init_value, num_embeds,
    self.variable_scope)] as the call it is, in a framework state [fw]. *)
Definition get_embedding_call
    (fw : Framework) (hparams : HParams) (init_value : option InitValue)
    (n : PyVal Tensor) (scope : VariableScope) : Outcome Tensor :=
  match get_embedding_refuses fw hparams init_value n scope with
  | Some exn => Raise exn
  | None => Return (get_embedding hparams init_value n scope)
  end.


(** [_init_parameterized_embedding] called in the framework state [fw]:
    its first statement is the call of [get_embedding], so a refusal
    leaves before anything is assigned. *)
Definition _init_parameterized_embedding_in
    (fw : Framework) (init_value : option InitValue) (n : PyVal Tensor)
    (hparams : HParams) : Method unit :=
  fun self =>
    match get_embedding_call fw hparams init_value n (variable_scope self) with
    | Raise exn => (Raise exn, self)
    | Return _ => _init_parameterized_embedding init_value n hparams self
    end.


End Refusing.

(** The static shapes with a framework that remembers the scopes holding a
    table: a second table in a scope is refused, and so is a table whose
    number of rows is not given. *)
Definition static_get_embedding_refuses
    (scopes : list string) (hparams : HParams) (init_value : option (list Z))
    (n : PyVal (list Z)) (scope : string) : option PyExn :=
  if existsb (String.eqb scope) scopes
  then Some (ValueError "Variable w already exists")
  else match init_value, n with
       | None, PNone =>
           Some (ValueError "Shape of a new variable must be fully defined")
       | _, _ => None
       end.

Definition static_refusals : @Refusals static_shapes :=
  @Build_Refusals static_shapes (list string) static_get_embedding_refuses
                  (fun _ _ _ => None).

(** * Properties *)

Section Properties.

Context `{Collaborators}.

Implicit Types (self : EmbedderBase) (hparams : HParams)
  (ids_rank : option Z) (dropout_input : option Tensor)
  (dropout_strategy : option string) (st : string).

(** ** The test [hparams.dropout_rate > 0.] *)

Lemma rate_positive_true hparams :
  rate_positive hparams = true <-> (0 < HParams.dropout_rate hparams)%Q.
Proof.
  unfold rate_positive.
  destruct (Qlt_le_dec 0 (HParams.dropout_rate hparams)) as [Hlt | Hle].
  - tauto.
  - split; [discriminate | intros Hlt].
    exfalso. exact (Qlt_not_le _ _ Hlt Hle).
Qed.

Lemma rate_positive_false hparams :
  rate_positive hparams = false <-> (HParams.dropout_rate hparams <= 0)%Q.
Proof.
  unfold rate_positive.
  destruct (Qlt_le_dec 0 (HParams.dropout_rate hparams)) as [Hlt | Hle].
  - split; [discriminate | intros Hle].
    exfalso. exact (Qlt_not_le _ _ Hlt Hle).
  - tauto.
Qed.

(** ** String tests of the strategy *)

Lemma unknown_strategy_tests st :
  ~ known_strategy st ->
  (st =? "element")%string = false /\
  (st =? "item")%string = false /\
  (st =? "item_type")%string = false.
Proof.
  unfold known_strategy. intros Hunknown.
  repeat split; apply String.eqb_neq; intros ->; tauto.
Qed.

Ltac method_unfold :=
  unfold _get_dropout_layer, _init_parameterized_embedding, call,
    mbind, Method_bind, bind, mret, Method_ret, ret, raise,
    getattr, setattr, _add_trainable_variable, list_getitem, py_len,
    py_getitem in *.

Ltac strategy_cases st :=
  destruct (st =? "element")%string eqn:Helement;
  [| destruct (st =? "item")%string eqn:Hitem;
     [| destruct (st =? "item_type")%string eqn:Hitem_type ] ].

(** ** [_get_dropout_layer] *)

(** Whatever it returns or raises, [_get_dropout_layer] hands the object
    back as it got it. *)
Lemma _get_dropout_layer_pure hparams ids_rank dropout_input dropout_strategy
    self :
  snd (_get_dropout_layer hparams ids_rank dropout_input dropout_strategy self)
  = self.
Proof.
  method_unfold.
  destruct (rate_positive hparams); [| reflexivity].
  strategy_cases (match dropout_strategy with
                  | Some st => st
                  | None => HParams.dropout_strategy hparams
                  end); simpl; try reflexivity.
  - destruct dropout_input, ids_rank; simpl; try reflexivity.
    destruct (_dim_rank self); reflexivity.
  - destruct (_dim_rank self); reflexivity.
Qed.

Lemma _get_dropout_layer_rate_not_positive
    hparams ids_rank dropout_input dropout_strategy self :
  (HParams.dropout_rate hparams <= 0)%Q ->
  _get_dropout_layer hparams ids_rank dropout_input dropout_strategy self
  = (Return None, self).
Proof.
  intros Hrate. apply rate_positive_false in Hrate.
  unfold _get_dropout_layer. rewrite Hrate. reflexivity.
Qed.

(** C3: with a dropout rate of zero or less there is no dropout layer: the
    method returns [None] whatever the strategy argument, and raises
    nothing, also when the selected strategy is a name it does not know. *)
Theorem no_dropout_when_rate_not_positive hparams self :
  (HParams.dropout_rate hparams <= 0)%Q ->
  forall ids_rank dropout_input dropout_strategy,
    _get_dropout_layer hparams ids_rank dropout_input dropout_strategy self
    = (Return None, self) /\
    (~ known_strategy (selected hparams dropout_strategy) ->
     forall msg,
       fst (_get_dropout_layer hparams ids_rank dropout_input
                               dropout_strategy self)
       <> Raise (ValueError msg)).
Proof.
  intros Hrate ids_rank dropout_input dropout_strategy.
  rewrite _get_dropout_layer_rate_not_positive by assumption.
  split; [reflexivity | intros _ msg; discriminate].
Qed.

(** C9: [_get_dropout_layer] leaves [_embedding], [_num_embeds], [_dim] and
    [_dim_rank] as they were, on every input, whether it returns a layer,
    returns [None] or raises. *)
Theorem get_dropout_layer_frame
    hparams ids_rank dropout_input dropout_strategy self :
  let self' :=
    snd (_get_dropout_layer hparams ids_rank dropout_input dropout_strategy
                            self) in
  _embedding self' = _embedding self /\
  _num_embeds self' = _num_embeds self /\
  _dim self' = _dim self /\
  _dim_rank self' = _dim_rank self.
Proof.
  intros self'. subst self'. rewrite _get_dropout_layer_pure. auto.
Qed.

(** Which outcome each branch of [_get_dropout_layer] has, by the selected
    strategy, when the rate is positive. *)
Lemma _get_dropout_layer_element
    hparams ids_rank dropout_input dropout_strategy self :
  (0 < HParams.dropout_rate hparams)%Q ->
  selected hparams dropout_strategy = "element" ->
  _get_dropout_layer hparams ids_rank dropout_input dropout_strategy self
  = (Return (Some (mkDropout (HParams.dropout_rate hparams) PNone)), self).
Proof.
  intros Hrate Hst. apply rate_positive_true in Hrate.
  unfold _get_dropout_layer, selected in *.
  destruct dropout_strategy as [st |]; simpl in Hst; rewrite Hrate, Hst; reflexivity.
Qed.

Lemma _get_dropout_layer_item
    hparams ids_rank dropout_input dropout_strategy self :
  (0 < HParams.dropout_rate hparams)%Q ->
  selected hparams dropout_strategy = "item" ->
  _get_dropout_layer hparams ids_rank dropout_input dropout_strategy self
  = (match dropout_input, ids_rank with
     | Some x, Some k =>
         match _dim_rank self with
         | Some r =>
             Return (Some (mkDropout (HParams.dropout_rate hparams)
               (PList (slice_to (shape_list x) k ++ replicate r (PInt 1)))))
         | None => Raise (AttributeError "_dim_rank")
         end
     | _, _ => Raise AssertionError
     end, self).
Proof.
  intros Hrate Hst. apply rate_positive_true in Hrate.
  unfold _get_dropout_layer, selected in *.
  destruct dropout_strategy as [st |]; simpl in Hst; rewrite Hrate, Hst;
    method_unfold; simpl;
    (destruct dropout_input, ids_rank; try reflexivity);
    destruct (_dim_rank self); reflexivity.
Qed.

Lemma _get_dropout_layer_item_type
    hparams ids_rank dropout_input dropout_strategy self :
  (0 < HParams.dropout_rate hparams)%Q ->
  selected hparams dropout_strategy = "item_type" ->
  _get_dropout_layer hparams ids_rank dropout_input dropout_strategy self
  = (match _dim_rank self with
     | None => Raise (AttributeError "_dim_rank")
     | Some r =>
         Return (Some (mkDropout (HParams.dropout_rate hparams)
           (PList (PNone :: replicate r (PInt 1)))))
     end, self).
Proof.
  intros Hrate Hst. apply rate_positive_true in Hrate.
  unfold _get_dropout_layer, selected in *.
  destruct dropout_strategy as [st |]; simpl in Hst; rewrite Hrate, Hst;
    method_unfold; simpl; destruct (_dim_rank self); reflexivity.
Qed.

Lemma _get_dropout_layer_unknown
    hparams ids_rank dropout_input dropout_strategy self :
  (0 < HParams.dropout_rate hparams)%Q ->
  ~ known_strategy (selected hparams dropout_strategy) ->
  _get_dropout_layer hparams ids_rank dropout_input dropout_strategy self
  = (Raise (ValueError ("Unknown dropout strategy: "
                        ++ selected hparams dropout_strategy)), self).
Proof.
  intros Hrate Hst. apply rate_positive_true in Hrate.
  apply unknown_strategy_tests in Hst as (He & Hi & Ht).
  unfold _get_dropout_layer, selected in *.
  destruct dropout_strategy as [st |]; simpl in *;
    rewrite Hrate, He, Hi, Ht; reflexivity.
Qed.

Lemma known_strategy_dec st : {known_strategy st} + {~ known_strategy st}.
Proof.
  unfold known_strategy.
  destruct (string_dec st "element"); [left; tauto |].
  destruct (string_dec st "item"); [left; tauto |].
  destruct (string_dec st "item_type"); [left; tauto |].
  right; tauto.
Qed.

(** C1: with a positive rate a dropout layer is built, and its noise shape
    follows from the selected strategy alone: [None] for ['element']; for
    ['item'], given [dropout_input] and a rank [ids_rank], the first
    [ids_rank] dimensions of the input followed by [_dim_rank] ones; for
    ['item_type'], [None] followed by [_dim_rank] ones.  No layer is built
    under any other strategy. *)
Theorem dropout_noise_shape_by_strategy
    hparams ids_rank dropout_input dropout_strategy self :
  (0 < HParams.dropout_rate hparams)%Q ->
  let st := selected hparams dropout_strategy in
  let run :=
    _get_dropout_layer hparams ids_rank dropout_input dropout_strategy self in
  let built shape :=
    (Return (Some (mkDropout (HParams.dropout_rate hparams) shape)), self) in
  (st = "element" -> run = built PNone) /\
  (st = "item" ->
   forall x k r,
     dropout_input = Some x -> ids_rank = Some k -> (0 <= k)%Z ->
     _dim_rank self = Some r ->
     run = built (PList (take (Z.to_nat k) (shape_list x)
                         ++ replicate r (PInt 1)))) /\
  (st = "item_type" ->
   forall r,
     _dim_rank self = Some r ->
     run = built (PList (PNone :: replicate r (PInt 1)))) /\
  (forall layer,
     fst run = Return (Some layer) ->
     known_strategy st /\ rate layer = HParams.dropout_rate hparams).
Proof.
  intros Hrate st run built. subst st run built.
  split; [| split; [| split] ].
  - intros Hst. now apply _get_dropout_layer_element.
  - intros Hst x k r -> -> Hk Hr.
    rewrite _get_dropout_layer_item by assumption. rewrite Hr.
    unfold slice_to. apply Z.leb_le in Hk. rewrite Hk. reflexivity.
  - intros Hst r Hr.
    rewrite _get_dropout_layer_item_type by assumption. rewrite Hr.
    reflexivity.
  - intros layer Hlayer.
    destruct (known_strategy_dec (selected hparams dropout_strategy))
      as [Hknown | Hunknown].
    2: { rewrite _get_dropout_layer_unknown in Hlayer by assumption.
         discriminate. }
    split; [assumption |].
    destruct Hknown as [Hst | [Hst | Hst]].
    + rewrite _get_dropout_layer_element in Hlayer by assumption.
      simpl in Hlayer. now inversion Hlayer.
    + rewrite _get_dropout_layer_item in Hlayer by assumption.
      destruct dropout_input, ids_rank; try discriminate.
      destruct (_dim_rank self); try discriminate.
      simpl in Hlayer. now inversion Hlayer.
    + rewrite _get_dropout_layer_item_type in Hlayer by assumption.
      destruct (_dim_rank self); try discriminate.
      simpl in Hlayer. now inversion Hlayer.
Qed.

(** C7: an [AssertionError] comes out of [_get_dropout_layer] exactly when
    the rate is positive, the strategy is ['item'] and [dropout_input] or
    [ids_rank] is [None]; with both given, or under another strategy, no
    assertion fails. *)
Theorem item_strategy_assertions
    hparams ids_rank dropout_input dropout_strategy self :
  fst (_get_dropout_layer hparams ids_rank dropout_input dropout_strategy self)
  = Raise AssertionError
  <-> ((0 < HParams.dropout_rate hparams)%Q /\
       selected hparams dropout_strategy = "item" /\
       (dropout_input = None \/ ids_rank = None)).
Proof.
  split.
  - intros Hraise.
    destruct (Qlt_le_dec 0 (HParams.dropout_rate hparams)) as [Hrate | Hrate].
    2: { rewrite _get_dropout_layer_rate_not_positive in Hraise by assumption.
         discriminate. }
    destruct (known_strategy_dec (selected hparams dropout_strategy))
      as [[Hst | [Hst | Hst]] | Hunknown].
    + rewrite _get_dropout_layer_element in Hraise by assumption.
      discriminate.
    + rewrite _get_dropout_layer_item in Hraise by assumption.
      repeat split; try assumption.
      destruct dropout_input; [| now left].
      destruct ids_rank; [| now right].
      simpl in Hraise. destruct (_dim_rank self); discriminate.
    + rewrite _get_dropout_layer_item_type in Hraise by assumption.
      simpl in Hraise. destruct (_dim_rank self); discriminate.
    + rewrite _get_dropout_layer_unknown in Hraise by assumption.
      discriminate.
  - intros (Hrate & Hst & Hmissing).
    rewrite _get_dropout_layer_item by assumption.
    destruct Hmissing as [-> | ->]; [reflexivity |].
    destruct dropout_input; reflexivity.
Qed.

Lemma decided_by_selected
    hparams ids_rank dropout_input dropout_strategy self :
  (0 < HParams.dropout_rate hparams)%Q ->
  decided_by (selected hparams dropout_strategy) hparams ids_rank
    dropout_input self
    (_get_dropout_layer hparams ids_rank dropout_input dropout_strategy self).
Proof.
  intros Hrate. unfold decided_by. split; [| split; [| split] ].
  - intros Hst. now apply _get_dropout_layer_element.
  - intros Hst. rewrite _get_dropout_layer_item by assumption. split.
    + intros [-> | ->]; [reflexivity |].
      destruct dropout_input; reflexivity.
    + intros x k r -> -> ->. reflexivity.
  - intros Hst r Hr. rewrite _get_dropout_layer_item_type by assumption.
    rewrite Hr. reflexivity.
  - intros Hst. now apply _get_dropout_layer_unknown.
Qed.

(** C8: the strategy is the [dropout_strategy] argument when it is given
    and [hparams.dropout_strategy] when it is not.  With a positive rate, a
    call with the argument [st] has the outcome of the branch of [st],
    whatever [hparams.dropout_strategy] is, and a call without the argument
    has the outcome of the branch of [hparams.dropout_strategy].  At any
    rate, a call with the argument [st] does what a call without argument
    does under hyperparameters whose strategy is [st], and the
    hyperparameter's strategy has no influence on it. *)
Theorem strategy_argument_overrides_hparams
    hparams ids_rank dropout_input self :
  ((0 < HParams.dropout_rate hparams)%Q ->
   (forall st st',
      decided_by st hparams ids_rank dropout_input self
        (_get_dropout_layer (with_strategy st' hparams) ids_rank
                            dropout_input (Some st) self)) /\
   decided_by (HParams.dropout_strategy hparams) hparams ids_rank
     dropout_input self
     (_get_dropout_layer hparams ids_rank dropout_input None self)) /\
  (forall st,
     _get_dropout_layer hparams ids_rank dropout_input (Some st) self
     = _get_dropout_layer (with_strategy st hparams) ids_rank dropout_input
                          None self) /\
  (forall st st',
     _get_dropout_layer (with_strategy st' hparams) ids_rank dropout_input
                        (Some st) self
     = _get_dropout_layer hparams ids_rank dropout_input (Some st) self) /\
  _get_dropout_layer hparams ids_rank dropout_input None self
  = _get_dropout_layer hparams ids_rank dropout_input
                       (Some (HParams.dropout_strategy hparams)) self.
Proof.
  split; [| repeat split; intros; reflexivity].
  intros Hrate. split.
  - intros st st'.
    exact (decided_by_selected (with_strategy st' hparams) ids_rank
             dropout_input (Some st) self Hrate).
  - exact (decided_by_selected hparams ids_rank dropout_input None self
             Hrate).
Qed.

(** ** [_init_parameterized_embedding] *)

(** The whole run, by whether the table has a first dimension.  The table
    is stored and registered before its shape is looked at, so both stay
    when the shape turns out empty. *)
Lemma _init_parameterized_embedding_run init_value n hparams self :
  let e := get_embedding hparams init_value n (variable_scope self) in
  let vars :=
    if HParams.trainable hparams
    then if decide (e ∈ _trainable_variables self)
         then _trainable_variables self
         else (_trainable_variables self ++ [e])%list
    else _trainable_variables self in
  _init_parameterized_embedding init_value n hparams self
  = match shape_list e with
    | [] =>
        (Raise IndexError,
         mkEmbedderBase (variable_scope self) vars (_num_embeds self)
                        (Some e) (_dim self) (_dim_rank self))
    | d0 :: rest =>
        (Return tt,
         mkEmbedderBase (variable_scope self) vars d0 (Some e)
                        (Some (match rest with [d] => d | _ => PList rest end))
                        (Some (length rest)))
    end.
Proof.
  intros e vars. subst vars.
  unfold _init_parameterized_embedding. fold e. clearbody e.
  method_unfold. cbn.
  destruct (HParams.trainable hparams); cbn;
    repeat case_decide; try contradiction; cbn;
    destruct (shape_list e) as [| d0 rest] eqn:Hshape; cbn;
    rewrite ?Hshape; try reflexivity;
    destruct rest as [| d1 [| d2 rest] ]; reflexivity.
Qed.

(** C4: on a table with a first dimension the method completes, and then
    [_num_embeds] is that first dimension, [_dim_rank] is the table's rank
    minus one, and [_dim] is the list of the dimensions after the first, or
    the dimension itself when that list has exactly one. *)
Theorem shape_metadata_from_table init_value n hparams self d0 rest :
  let e := get_embedding hparams init_value n (variable_scope self) in
  shape_list e = d0 :: rest ->
  exists self',
    _init_parameterized_embedding init_value n hparams self
    = (Return tt, self') /\
    _num_embeds self' = d0 /\
    _dim_rank self' = Some (length (shape_list e) - 1) /\
    _dim self' = Some (match drop 1 (shape_list e) with
                       | [d] => d
                       | dims => PList dims
                       end).
Proof.
  intros e Hshape.
  pose proof (_init_parameterized_embedding_run init_value n hparams self)
    as Hrun.
  cbv zeta in Hrun. fold e in Hrun. rewrite Hshape in Hrun.
  eexists. split; [exact Hrun |].
  rewrite Hshape. cbn. rewrite Nat.sub_0_r.
  repeat split. destruct rest as [| d1 [| d2 rest] ]; reflexivity.
Qed.

Lemma _init_parameterized_embedding_stores init_value n hparams self :
  let e := get_embedding hparams init_value n (variable_scope self) in
  let self' :=
    snd (_init_parameterized_embedding init_value n hparams self) in
  _embedding self' = Some e /\
  _trainable_variables self'
  = if HParams.trainable hparams
    then if decide (e ∈ _trainable_variables self)
         then _trainable_variables self
         else (_trainable_variables self ++ [e])%list
    else _trainable_variables self.
Proof.
  intros e self'. subst self'.
  rewrite _init_parameterized_embedding_run. cbv zeta. fold e.
  destruct (shape_list e); split; reflexivity.
Qed.

(** C5: the table that [get_embedding] returns is stored in [_embedding];
    it is among the trainable variables afterwards when [hparams.trainable]
    is true, and the trainable variables are untouched when it is false.
    For a table that was not registered before, it is registered afterwards
    if and only if [hparams.trainable] is true. *)
Theorem embedding_registered_iff_trainable init_value n hparams self :
  let e := get_embedding hparams init_value n (variable_scope self) in
  let self' :=
    snd (_init_parameterized_embedding init_value n hparams self) in
  _embedding self' = Some e /\
  (HParams.trainable hparams = true -> e ∈ _trainable_variables self') /\
  (HParams.trainable hparams = false ->
   _trainable_variables self' = _trainable_variables self) /\
  (e ∉ _trainable_variables self ->
   (e ∈ _trainable_variables self' <-> HParams.trainable hparams = true)).
Proof.
  intros e self'.
  destruct (_init_parameterized_embedding_stores init_value n hparams self)
    as [Hstored Hvars].
  fold e self' in Hstored, Hvars.
  split; [exact Hstored |]. rewrite Hvars. clear Hstored Hvars.
  destruct (HParams.trainable hparams).
  - case_decide as Hin.
    + repeat split; try tauto; discriminate.
    + repeat split; try discriminate.
      * intros _. apply elem_of_app. right. apply list_elem_of_singleton.
        reflexivity.
      * intros _. apply elem_of_app. right. apply list_elem_of_singleton.
        reflexivity.
  - repeat split; try tauto; try discriminate.
Qed.

(** ** Calls from outside *)


Lemma call_keeps_object c self :
  is_init_parameterized_embedding c = false -> snd (call c self) = self.
Proof.
  destruct c as [iv n hp | hp k x ds | |]; intros Hc;
    try discriminate; try reflexivity.
  unfold call, mbind, Method_bind, bind.
  pose proof (_get_dropout_layer_pure hp k x ds self) as Hpure.
  destruct (_get_dropout_layer hp k x ds self) as [[layer | e] self'];
    exact Hpure.
Qed.

Lemma calls_keep_object cs self :
  Forall (fun c => is_init_parameterized_embedding c = false) cs ->
  calls cs self = self.
Proof.
  intros Hcs. revert self.
  induction Hcs as [| c cs Hc _ IH]; intros self; [reflexivity |].
  unfold calls in *. cbn. rewrite call_keeps_object by assumption. apply IH.
Qed.

Lemma calls_app cs1 cs2 self :
  calls (cs1 ++ cs2) self = calls cs2 (calls cs1 self).
Proof. unfold calls. apply foldl_app. Qed.

(** C6: the [num_embeds] property returns the constructor's argument,
    [None] included, until [_init_parameterized_embedding] is called,
    whatever else is called in between; once it has been called on a table
    with a first dimension, the property returns that dimension. *)
Theorem num_embeds_property (n0 : PyVal Tensor) module_hparams :
  (forall cs,
     Forall (fun c => is_init_parameterized_embedding c = false) cs ->
     num_embeds (calls cs (__init__ n0 module_hparams)) = n0) /\
  (forall cs1 init_value n hparams cs2 d0 rest,
     let before := calls cs1 (__init__ n0 module_hparams) in
     Forall (fun c => is_init_parameterized_embedding c = false) cs2 ->
     shape_list (get_embedding hparams init_value n (variable_scope before))
     = d0 :: rest ->
     num_embeds
       (calls (cs1 ++ call_init_parameterized_embedding init_value n hparams
                   :: cs2)
              (__init__ n0 module_hparams))
     = d0).
Proof.
  split.
  - intros cs Hcs. rewrite calls_keep_object by assumption. reflexivity.
  - intros cs1 init_value n hparams cs2 d0 rest before Hcs2 Hshape.
    rewrite calls_app. fold before.
    change (calls (?c :: cs2) before) with (calls cs2 (snd (call c before))).
    rewrite calls_keep_object by assumption.
    unfold call, mbind, Method_bind, bind.
    rewrite _init_parameterized_embedding_run. cbv zeta.
    rewrite Hshape. reflexivity.
Qed.

(** ** Edge cases *)

(** A table without dimensions: the shape has no first entry, so the
    method raises at [shape_list(self._embedding)[0]] and [_num_embeds]
    keeps its value. *)
Lemma _init_parameterized_embedding_scalar_table init_value n hparams self :
  shape_list (get_embedding hparams init_value n (variable_scope self)) = [] ->
  fst (_init_parameterized_embedding init_value n hparams self)
  = Raise IndexError /\
  num_embeds (snd (_init_parameterized_embedding init_value n hparams self))
  = num_embeds self.
Proof.
  intros Hshape. rewrite _init_parameterized_embedding_run. cbv zeta.
  rewrite Hshape. split; reflexivity.
Qed.

(** A negative [ids_rank] drops dimensions from the end of the shape. *)
Lemma slice_to_negative (l : list (PyVal Tensor)) k :
  (k < 0)%Z -> slice_to l k = take (length l - Z.to_nat (- k)) l.
Proof.
  intros Hk. unfold slice_to.
  destruct (0 <=? k)%Z eqn:Hle; [apply Z.leb_le in Hle; lia |].
  f_equal. lia.
Qed.

(** The strategies that put ones for the embedding dimensions read
    [_dim_rank], which exists once the table has been built. *)
Lemma _get_dropout_layer_before_table
    hparams ids_rank dropout_input dropout_strategy self :
  (0 < HParams.dropout_rate hparams)%Q ->
  selected hparams dropout_strategy = "item_type" ->
  _dim_rank self = None ->
  fst (_get_dropout_layer hparams ids_rank dropout_input dropout_strategy self)
  = Raise (AttributeError "_dim_rank").
Proof.
  intros Hrate Hst Habsent.
  rewrite _get_dropout_layer_item_type by assumption.
  rewrite Habsent. reflexivity.
Qed.

(** ** More on [_init_parameterized_embedding] *)

Lemma call_init_parameterized_embedding_object init_value n hparams self :
  snd (call (call_init_parameterized_embedding init_value n hparams) self)
  = snd (_init_parameterized_embedding init_value n hparams self).
Proof.
  unfold call, mbind, Method_bind, bind.
  destruct (_init_parameterized_embedding init_value n hparams self)
    as [[u | e] self']; reflexivity.
Qed.

(** ** More on [_get_dropout_layer] *)

(** X2: [_get_dropout_layer] returns [None] exactly when the test
    [hparams.dropout_rate > 0.] fails; a layer it returns carries the
    hyperparameters' rate, and that rate passes the test. *)
Theorem dropout_layer_none_iff_rate_test_fails
    hparams ids_rank dropout_input dropout_strategy self :
  let run :=
    _get_dropout_layer hparams ids_rank dropout_input dropout_strategy self in
  (fst run = Return None <-> ~ (0 < HParams.dropout_rate hparams)%Q) /\
  (forall layer,
     fst run = Return (Some layer) ->
     rate layer = HParams.dropout_rate hparams /\ (0 < rate layer)%Q).
Proof.
  intros run. subst run.
  destruct (Qlt_le_dec 0 (HParams.dropout_rate hparams)) as [Hrate | Hrate].
  - destruct (known_strategy_dec (selected hparams dropout_strategy))
      as [[Hst | [Hst | Hst]] | Hunknown].
    + rewrite _get_dropout_layer_element by assumption. cbn.
      split; [split; [discriminate | tauto] |].
      intros layer [= <-]. cbn. auto.
    + rewrite _get_dropout_layer_item by assumption. cbn.
      destruct dropout_input, ids_rank, (_dim_rank self); cbn;
        (split; [split; [discriminate | tauto] |]);
        intros layer Hlayer; try discriminate.
      injection Hlayer as <-. cbn. auto.
    + rewrite _get_dropout_layer_item_type by assumption. cbn.
      destruct (_dim_rank self); cbn;
        (split; [split; [discriminate | tauto] |]);
        intros layer Hlayer; try discriminate.
      injection Hlayer as <-. cbn. auto.
    + rewrite _get_dropout_layer_unknown by assumption. cbn.
      split; [split; [discriminate | tauto] |]. discriminate.
  - rewrite _get_dropout_layer_rate_not_positive by assumption. cbn.
    split; [| discriminate].
    split; [| reflexivity].
    intros _ Hlt. exact (Qlt_not_le _ _ Hlt Hrate).
Qed.

(** X3: under ['item'] with a rank [ids_rank >= 0], the noise shape has
    [min(ids_rank, rank of the input) + _dim_rank] entries; a rank at or
    beyond the input's takes the input's whole shape. *)
Theorem item_noise_shape_length
    hparams ids_rank dropout_input dropout_strategy self x k r :
  (0 < HParams.dropout_rate hparams)%Q ->
  selected hparams dropout_strategy = "item" ->
  dropout_input = Some x -> ids_rank = Some k -> (0 <= k)%Z ->
  _dim_rank self = Some r ->
  exists shape,
    _get_dropout_layer hparams ids_rank dropout_input dropout_strategy self
    = (Return (Some (mkDropout (HParams.dropout_rate hparams) (PList shape))),
       self) /\
    length shape = Z.to_nat k `min` length (shape_list x) + r /\
    (length (shape_list x) <= Z.to_nat k ->
     shape = shape_list x ++ replicate r (PInt 1))%list.
Proof.
  intros Hrate Hst -> -> Hk Hr.
  rewrite _get_dropout_layer_item by assumption. rewrite Hr.
  unfold slice_to. apply Z.leb_le in Hk. rewrite Hk.
  eexists. split; [reflexivity |]. split.
  - rewrite length_app, length_take, length_replicate. reflexivity.
  - intros Hlong. rewrite take_ge by assumption. reflexivity.
Qed.

(** X4: under ['item'], a negative [ids_rank] counts from the end: the
    noise shape is the input's shape without its last [-ids_rank]
    dimensions, followed by [_dim_rank] ones. *)
Theorem item_negative_ids_rank
    hparams ids_rank dropout_input dropout_strategy self x k r :
  (0 < HParams.dropout_rate hparams)%Q ->
  selected hparams dropout_strategy = "item" ->
  dropout_input = Some x -> ids_rank = Some k -> (k < 0)%Z ->
  _dim_rank self = Some r ->
  _get_dropout_layer hparams ids_rank dropout_input dropout_strategy self
  = (Return (Some (mkDropout (HParams.dropout_rate hparams)
       (PList (take (length (shape_list x) - Z.to_nat (- k)) (shape_list x)
               ++ replicate r (PInt 1))))),
     self).
Proof.
  intros Hrate Hst -> -> Hk Hr.
  rewrite _get_dropout_layer_item by assumption. rewrite Hr.
  rewrite slice_to_negative by assumption. reflexivity.
Qed.

(** X8: what [_get_dropout_layer] can raise.  [AssertionError] under
    ['item'] with an input missing; [AttributeError] for [_dim_rank], on an
    object without it, under ['item_type'] or under ['item'] with both
    inputs; [ValueError] naming the strategy, which is then none of the
    three.  Each needs a positive rate, and nothing else is raised. *)
Theorem get_dropout_layer_exceptions
    hparams ids_rank dropout_input dropout_strategy self :
  let st := selected hparams dropout_strategy in
  match
    fst (_get_dropout_layer hparams ids_rank dropout_input dropout_strategy
                            self)
  with
  | Return _ => True
  | Raise AssertionError =>
      (0 < HParams.dropout_rate hparams)%Q /\ st = "item" /\
      (dropout_input = None \/ ids_rank = None)
  | Raise (AttributeError attr) =>
      (0 < HParams.dropout_rate hparams)%Q /\ attr = "_dim_rank" /\
      _dim_rank self = None /\
      (st = "item_type" \/
       st = "item" /\ is_Some dropout_input /\ is_Some ids_rank)
  | Raise (ValueError msg) =>
      (0 < HParams.dropout_rate hparams)%Q /\ ~ known_strategy st /\
      msg = "Unknown dropout strategy: " ++ st
  | Raise IndexError | Raise TypeError => False
  end.
Proof.
  intros st. subst st.
  destruct (Qlt_le_dec 0 (HParams.dropout_rate hparams)) as [Hrate | Hrate].
  2: { rewrite _get_dropout_layer_rate_not_positive by assumption.
       exact I. }
  destruct (known_strategy_dec (selected hparams dropout_strategy))
    as [[Hst | [Hst | Hst]] | Hunknown].
  - rewrite _get_dropout_layer_element by assumption. exact I.
  - rewrite _get_dropout_layer_item by assumption. cbn.
    destruct dropout_input, ids_rank; cbn; auto.
    destruct (_dim_rank self) eqn:Hr; cbn; [exact I |].
    repeat split; eauto.
  - rewrite _get_dropout_layer_item_type by assumption. cbn.
    destruct (_dim_rank self) eqn:Hr; cbn; [exact I |].
    repeat split; auto.
  - rewrite _get_dropout_layer_unknown by assumption. cbn. auto.
Qed.

(** ** Sequences of calls *)

Lemma calls_cons c cs self :
  calls (c :: cs) self = calls cs (snd (call c self)).
Proof. reflexivity. Qed.

Lemma call_keeps_metadata c self :
  metadata_consistent self -> metadata_consistent (snd (call c self)).
Proof.
  intros Hself.
  destruct c as [iv n hp | hp k x ds | |];
    try (rewrite call_keeps_object by reflexivity; exact Hself).
  rewrite call_init_parameterized_embedding_object.
  rewrite _init_parameterized_embedding_run. cbv zeta.
  unfold metadata_consistent in *.
  destruct (shape_list _) as [| d0 rest]; cbn.
  - destruct (_dim_rank self); [| exact Hself].
    split; [eauto | tauto].
  - split; [eauto |]. eexists. split; [reflexivity |].
    destruct rest as [| d1 [| d2 rest] ]; cbn; intros Hrank;
      try congruence; eauto.
Qed.

Lemma calls_keep_metadata cs self :
  metadata_consistent self -> metadata_consistent (calls cs self).
Proof.
  revert self. induction cs as [| c cs IH]; intros self Hself;
    [exact Hself |].
  rewrite calls_cons. apply IH. now apply call_keeps_metadata.
Qed.

Lemma call_keeps_dim_rank c self :
  is_Some (_dim_rank self) -> is_Some (_dim_rank (snd (call c self))).
Proof.
  intros Hself.
  destruct c as [iv n hp | hp k x ds | |];
    try (rewrite call_keeps_object by reflexivity; exact Hself).
  rewrite call_init_parameterized_embedding_object.
  rewrite _init_parameterized_embedding_run. cbv zeta.
  destruct (shape_list _); cbn; eauto.
Qed.

Lemma calls_keep_dim_rank cs self :
  is_Some (_dim_rank self) -> is_Some (_dim_rank (calls cs self)).
Proof.
  revert self. induction cs as [| c cs IH]; intros self Hself;
    [exact Hself |].
  rewrite calls_cons. apply IH. now apply call_keeps_dim_rank.
Qed.

(** X5: on an object made by [__init__], after any calls of its methods,
    failing ones included: [_dim] and [_dim_rank] exist together; an object
    with [_dim_rank] holds a table; and unless [_dim_rank] is one, [_dim]
    is a list of [_dim_rank] entries. *)
Theorem metadata_defined_together (n0 : PyVal Tensor) module_hparams cs :
  let self := calls cs (__init__ n0 module_hparams) in
  (_dim_rank self = None <-> _dim self = None) /\
  (is_Some (_dim_rank self) -> is_Some (_embedding self)) /\
  (forall r,
     _dim_rank self = Some r -> r <> 1 ->
     exists l, _dim self = Some (PList l) /\ length l = r).
Proof.
  intros self.
  assert (metadata_consistent self) as Hself.
  { apply calls_keep_metadata. reflexivity. }
  unfold metadata_consistent in Hself.
  destruct (_dim_rank self) as [r |].
  - destruct Hself as (Htable & d & Hd & Hlist).
    split; [split; congruence |]. split; [auto |].
    intros r' [= <-] Hrank.
    destruct (Hlist Hrank) as (l & -> & Hlen). eauto.
  - split; [tauto |]. split.
    + intros [r Hr]. discriminate.
    + discriminate.
Qed.

(** X6: once [_init_parameterized_embedding] has built a table with a
    first dimension, [_dim_rank] stays through every later call, a later
    failing [_init_parameterized_embedding] included; so with a positive
    rate and one of the three strategies (['item'] with its two inputs)
    [_get_dropout_layer] returns a layer. *)
Theorem dropout_available_once_table_built
    self init_value n hparams cs d0 rest :
  shape_list (get_embedding hparams init_value n (variable_scope self))
  = d0 :: rest ->
  let self' :=
    calls (call_init_parameterized_embedding init_value n hparams :: cs)
          self in
  is_Some (_dim_rank self') /\
  forall hparams' ids_rank dropout_input dropout_strategy,
    (0 < HParams.dropout_rate hparams')%Q ->
    known_strategy (selected hparams' dropout_strategy) ->
    (selected hparams' dropout_strategy = "item" ->
     is_Some dropout_input /\ is_Some ids_rank) ->
    exists layer,
      _get_dropout_layer hparams' ids_rank dropout_input dropout_strategy
                         self'
      = (Return (Some layer), self').
Proof.
  intros Hshape self'.
  assert (is_Some (_dim_rank self')) as [r Hr].
  { subst self'. rewrite calls_cons. apply calls_keep_dim_rank.
    rewrite call_init_parameterized_embedding_object.
    rewrite _init_parameterized_embedding_run. cbv zeta.
    rewrite Hshape. cbn. eauto. }
  split; [eauto |].
  intros hparams' ids_rank dropout_input dropout_strategy Hrate Hknown Hitem.
  destruct Hknown as [Hst | [Hst | Hst] ].
  - rewrite _get_dropout_layer_element by assumption. eauto.
  - rewrite _get_dropout_layer_item by assumption.
    destruct (Hitem Hst) as [[x ->] [k ->] ]. rewrite Hr. eauto.
  - rewrite _get_dropout_layer_item_type by assumption.
    rewrite Hr. eauto.
Qed.

(** X7: on the object [_init_parameterized_embedding] leaves, the noise
    shape of ['item_type'] is [None] followed by a one for each dimension
    of the table after the first: it has as many entries as the table has
    dimensions. *)
Theorem item_type_noise_shape_has_table_rank
    self init_value n hparams d0 rest
    hparams' ids_rank dropout_input dropout_strategy :
  let e := get_embedding hparams init_value n (variable_scope self) in
  shape_list e = d0 :: rest ->
  (0 < HParams.dropout_rate hparams')%Q ->
  selected hparams' dropout_strategy = "item_type" ->
  let self' :=
    snd (_init_parameterized_embedding init_value n hparams self) in
  exists shape,
    _get_dropout_layer hparams' ids_rank dropout_input dropout_strategy self'
    = (Return (Some (mkDropout (HParams.dropout_rate hparams')
                               (PList shape))), self') /\
    shape = PNone :: replicate (length rest) (PInt 1) /\
    length shape = length (shape_list e).
Proof.
  intros e Hshape Hrate Hst self'.
  assert (_dim_rank self' = Some (length rest)) as Hr.
  { subst self'. rewrite _init_parameterized_embedding_run. cbv zeta.
    fold e. rewrite Hshape. reflexivity. }
  rewrite _get_dropout_layer_item_type by assumption. rewrite Hr.
  eexists. split; [reflexivity |]. split; [reflexivity |].
  rewrite Hshape. cbn. rewrite length_replicate. reflexivity.
Qed.

(** X9: on an object made by [__init__] on which
    [_init_parameterized_embedding] has not been called, with a positive
    rate: ['element'] gives its layer, while ['item_type'], and ['item']
    with its two inputs, raise [AttributeError] for [_dim_rank]. *)
Theorem table_needed_before_item_dropout
    (n0 : PyVal Tensor) module_hparams cs
    hparams ids_rank dropout_input dropout_strategy :
  Forall (fun c => is_init_parameterized_embedding c = false) cs ->
  (0 < HParams.dropout_rate hparams)%Q ->
  let self := calls cs (__init__ n0 module_hparams) in
  let run :=
    _get_dropout_layer hparams ids_rank dropout_input dropout_strategy self in
  (selected hparams dropout_strategy = "element" ->
   run = (Return (Some (mkDropout (HParams.dropout_rate hparams) PNone)),
          self)) /\
  (selected hparams dropout_strategy = "item_type" ->
   run = (Raise (AttributeError "_dim_rank"), self)) /\
  (selected hparams dropout_strategy = "item" ->
   is_Some dropout_input -> is_Some ids_rank ->
   run = (Raise (AttributeError "_dim_rank"), self)).
Proof.
  intros Hcs Hrate self run. subst run.
  assert (_dim_rank self = None) as Hr.
  { subst self. rewrite calls_keep_object by assumption. reflexivity. }
  split; [| split].
  - intros Hst. now apply _get_dropout_layer_element.
  - intros Hst. rewrite _get_dropout_layer_item_type by assumption.
    rewrite Hr. reflexivity.
  - intros Hst [x ->] [k ->].
    rewrite _get_dropout_layer_item by assumption.
    rewrite Hr. reflexivity.
Qed.

End Properties.

(** * Exceptions that come from the collaborators *)

Section RefusingProperties.

Context `{Refusals}.

Lemma _init_parameterized_embedding_in_accepted
    fw init_value n hparams self :
  get_embedding_refuses fw hparams init_value n (variable_scope self) = None ->
  _init_parameterized_embedding_in fw init_value n hparams self
  = _init_parameterized_embedding init_value n hparams self.
Proof.
  intros Haccepted.
  unfold _init_parameterized_embedding_in, get_embedding_call.
  rewrite Haccepted. reflexivity.
Qed.

Lemma _init_parameterized_embedding_in_refused
    fw init_value n hparams self exn :
  get_embedding_refuses fw hparams init_value n (variable_scope self)
  = Some exn ->
  _init_parameterized_embedding_in fw init_value n hparams self
  = (Raise exn, self).
Proof.
  intros Hrefused.
  unfold _init_parameterized_embedding_in, get_embedding_call.
  rewrite Hrefused. reflexivity.
Qed.

(** X1: what [_init_parameterized_embedding] raises.  When [get_embedding]
    raises, the method raises the same exception and has assigned nothing.
    When it returns a table, the method completes exactly when the table's
    shape is not empty; on the empty shape it raises [IndexError], its only
    exception then, with the table stored and [_num_embeds], [_dim] and
    [_dim_rank] as they were before the call. *)
Theorem init_parameterized_embedding_exceptions
    fw init_value n hparams self :
  let run := _init_parameterized_embedding_in fw init_value n hparams self in
  match get_embedding_call fw hparams init_value n (variable_scope self) with
  | Raise exn => run = (Raise exn, self)
  | Return e =>
      (fst run = Return tt <-> shape_list e <> []) /\
      (shape_list e = [] ->
       fst run = Raise IndexError /\
       _embedding (snd run) = Some e /\
       _num_embeds (snd run) = _num_embeds self /\
       _dim (snd run) = _dim self /\
       _dim_rank (snd run) = _dim_rank self) /\
      (forall exn,
         fst run = Raise exn -> exn = IndexError /\ shape_list e = [])
  end.
Proof.
  intros run. subst run. unfold get_embedding_call.
  destruct (get_embedding_refuses fw hparams init_value n
              (variable_scope self)) as [exn |] eqn:Hcheck.
  - now apply _init_parameterized_embedding_in_refused.
  - rewrite _init_parameterized_embedding_in_accepted by assumption.
    rewrite _init_parameterized_embedding_run. cbv zeta.
    destruct (shape_list _) as [| d0 rest]; cbn.
    + split; [split; [discriminate | congruence] |].
      split; [intros _; repeat split |].
      intros exn [= <-]. split; reflexivity.
    + split; [split; [discriminate | reflexivity] |].
      split; discriminate.
Qed.


End RefusingProperties.

(** * The class at work on static shapes *)

Section Examples.

#[local] Existing Instance static_shapes.

Import Example.

Lemma half_positive : (0 < HParams.dropout_rate hparams)%Q.
Proof. reflexivity. Defined.

Lemma dropout_noise_shape_by_strategy_witness :
  _get_dropout_layer hparams None None None embedder
  = (Return (Some (mkDropout (1 # 2) PNone)), embedder) /\
  _get_dropout_layer hparams (Some 2%Z) (Some [64; 20; 300]%Z) (Some "item")
                     embedder
  = (Return (Some (mkDropout (1 # 2)
                     (PList [PInt 64; PInt 20; PInt 1]))), embedder) /\
  _get_dropout_layer hparams None None (Some "item_type") embedder
  = (Return (Some (mkDropout (1 # 2) (PList [PNone; PInt 1]))), embedder).
Proof.
  split; [| split].
  - exact (proj1 (dropout_noise_shape_by_strategy
                    hparams None None None embedder half_positive) eq_refl).
  - exact (proj1 (proj2 (dropout_noise_shape_by_strategy
                    hparams (Some 2%Z) (Some [64; 20; 300]%Z) (Some "item")
                    embedder half_positive))
             eq_refl [64; 20; 300]%Z 2%Z 1 eq_refl eq_refl
             (Z.le_0_2) eq_refl).
  - exact (proj1 (proj2 (proj2 (dropout_noise_shape_by_strategy
                    hparams None None (Some "item_type") embedder
                    half_positive)))
             eq_refl 1 eq_refl).
Defined.

Lemma token_unknown : ~ known_strategy "token".
Proof. intros [Hst | [Hst | Hst] ]; discriminate Hst. Defined.



Lemma strategy_argument_overrides_hparams_witness :
  _get_dropout_layer hparams None None (Some "token") embedder
  = (Raise (ValueError "Unknown dropout strategy: token"), embedder) /\
  _get_dropout_layer (with_strategy "token" hparams) None None
                     (Some "element") embedder
  = (Return (Some (mkDropout (1 # 2) PNone)), embedder) /\
  _get_dropout_layer (with_strategy "item_type" hparams) None None None
                     embedder
  = (Return (Some (mkDropout (1 # 2) (PList [PNone; PInt 1]))), embedder).
Proof.
  split; [| split].
  - exact (proj2 (proj2 (proj2 (proj1
             (proj1 (@strategy_argument_overrides_hparams static_shapes
                       hparams None None embedder) half_positive)
             "token" "element"))) token_unknown).
  - exact (proj1 (proj1
             (proj1 (@strategy_argument_overrides_hparams static_shapes
                       hparams None None embedder) half_positive)
             "element" "token") eq_refl).
  - exact (proj1 (proj2 (proj2 (proj2
             (proj1 (@strategy_argument_overrides_hparams static_shapes
                       (with_strategy "item_type" hparams) None None
                       embedder) half_positive))))
             eq_refl 1 eq_refl).
Defined.

Lemma init_parameterized_embedding_exceptions_witness :
  @_init_parameterized_embedding_in static_shapes static_refusals
    ["embedder"] (Some [10000; 300]%Z) (PInt 10000) hparams embedder
  = (Raise (ValueError "Variable w already exists"), embedder).
Proof.
  exact (@init_parameterized_embedding_exceptions static_shapes
           static_refusals ["embedder"] (Some [10000; 300]%Z) (PInt 10000)
           hparams embedder).
Defined.

Lemma zero_not_positive : (HParams.dropout_rate frozen <= 0)%Q.
Proof. discriminate. Defined.

Lemma no_dropout_when_rate_not_positive_witness :
  _get_dropout_layer frozen None None (Some "token") embedder
  = (Return None, embedder).
Proof.
  exact (proj1 (no_dropout_when_rate_not_positive
                  frozen embedder zero_not_positive None None (Some "token"))).
Defined.

Lemma shape_metadata_from_table_witness :
  exists self',
    _init_parameterized_embedding (Some [10000; 300]%Z) (PInt 10000) hparams
                                  (__init__ PNone None)
    = (Return tt, self') /\
    _num_embeds self' = PInt 10000 /\
    _dim_rank self' = Some 1 /\
    _dim self' = Some (PInt 300).
Proof.
  exact (shape_metadata_from_table (Some [10000; 300]%Z) (PInt 10000) hparams
           (__init__ PNone None) (PInt 10000) [PInt 300] eq_refl).
Defined.

Lemma embedding_registered_iff_trainable_witness :
  [10000; 300]%Z ∈ _trainable_variables embedder /\
  _trainable_variables
    (snd (_init_parameterized_embedding (Some [10000; 300]%Z) (PInt 10000)
                                        frozen (__init__ PNone None)))
  = [].
Proof.
  split.
  - exact (proj1 (proj2 (embedding_registered_iff_trainable
             (Some [10000; 300]%Z) (PInt 10000) hparams
             (__init__ PNone None))) eq_refl).
  - exact (proj1 (proj2 (proj2 (embedding_registered_iff_trainable
             (Some [10000; 300]%Z) (PInt 10000) frozen
             (__init__ PNone None)))) eq_refl).
Defined.

Lemma num_embeds_property_witness :
  num_embeds
    (calls [call_get_dropout_layer hparams None None None; call_num_embeds]
           (__init__ PNone None))
  = PNone /\
  num_embeds
    (calls ([call_default_hparams]
            ++ call_init_parameterized_embedding (Some [10000; 300]%Z)
                 (PInt 10000) hparams
            :: [call_get_dropout_layer hparams None None (Some "token")])
           (__init__ PNone None))
  = PInt 10000.
Proof.
  split.
  - apply (proj1 (@num_embeds_property static_shapes PNone None)).
    repeat constructor.
  - apply (proj2 (@num_embeds_property static_shapes PNone None)
             [call_default_hparams] (Some [10000; 300]%Z) (PInt 10000)
             hparams [call_get_dropout_layer hparams None None (Some "token")]
             (PInt 10000) [PInt 300]).
    + repeat constructor.
    + reflexivity.
Defined.

Lemma item_noise_shape_length_witness :
  exists shape,
    _get_dropout_layer hparams (Some 5%Z) (Some [64; 20]%Z) (Some "item")
                       embedder
    = (Return (Some (mkDropout (1 # 2) (PList shape))), embedder) /\
    length shape = 3 /\
    (2 <= 5 -> shape = [PInt 64; PInt 20; PInt 1]).
Proof.
  apply (@item_noise_shape_length static_shapes
           hparams (Some 5%Z) (Some [64; 20]%Z) (Some "item") embedder
           [64; 20]%Z 5%Z 1 half_positive);
    try reflexivity.
  discriminate.
Defined.

Lemma item_negative_ids_rank_witness :
  _get_dropout_layer hparams (Some (-1)%Z) (Some [64; 20; 300]%Z)
                     (Some "item") embedder
  = (Return (Some (mkDropout (1 # 2) (PList [PInt 64; PInt 20; PInt 1]))),
     embedder).
Proof.
  apply (@item_negative_ids_rank static_shapes
           hparams (Some (-1)%Z) (Some [64; 20; 300]%Z) (Some "item")
           embedder [64; 20; 300]%Z (-1)%Z 1 half_positive);
    reflexivity.
Defined.

Lemma dropout_available_once_table_built_witness :
  _embedding rebuilt = Some [] /\
  exists layer,
    _get_dropout_layer hparams None None (Some "item_type") rebuilt
    = (Return (Some layer), rebuilt).
Proof.
  split; [reflexivity |].
  apply (proj2 (@dropout_available_once_table_built static_shapes
                  (__init__ PNone None) (Some [10000; 300]%Z) (PInt 10000)
                  hparams
                  [@call_init_parameterized_embedding static_shapes
                     (Some []) (PInt 10000) hparams]
                  (PInt 10000) [PInt 300] eq_refl)).
  - exact half_positive.
  - right. right. reflexivity.
  - discriminate.
Defined.

Lemma item_type_noise_shape_has_table_rank_witness :
  exists shape,
    _get_dropout_layer hparams None None (Some "item_type") embedder
    = (Return (Some (mkDropout (1 # 2) (PList shape))), embedder) /\
    shape = [PNone; PInt 1] /\
    length shape = 2.
Proof.
  exact (@item_type_noise_shape_has_table_rank static_shapes
           (__init__ PNone None) (Some [10000; 300]%Z) (PInt 10000) hparams
           (PInt 10000) [PInt 300] hparams None None (Some "item_type")
           eq_refl half_positive eq_refl).
Defined.

Lemma table_needed_before_item_dropout_witness :
  _get_dropout_layer hparams None None (Some "item_type")
                     (calls [call_num_embeds] (__init__ (PInt 10000) None))
  = (Raise (AttributeError "_dim_rank"),
     calls [call_num_embeds] (__init__ (PInt 10000) None)).
Proof.
  apply (proj1 (proj2 (@table_needed_before_item_dropout static_shapes
                  (PInt 10000) None [call_num_embeds]
                  hparams None None (Some "item_type")
                  ltac:(repeat constructor) half_positive))).
  reflexivity.
Defined.

(** A table built from a scalar initial value has no first dimension. *)
Example scalar_table_raises :
  _init_parameterized_embedding (Some []) (PInt 10000) hparams
                                (__init__ (PInt 10000) None)
  = (Raise IndexError,
     mkEmbedderBase "embedder" [ [] ] (PInt 10000) (Some []) None None).
Proof. reflexivity. Qed.

(** The dropout layer asked for before the table exists. *)
Example item_type_before_table :
  _get_dropout_layer hparams None None (Some "item_type")
                     (__init__ (PInt 10000) None)
  = (Raise (AttributeError "_dim_rank"), __init__ (PInt 10000) None).
Proof. reflexivity. Qed.

(** ['item'] without its input. *)
Example item_without_input :
  fst (_get_dropout_layer hparams (Some 2%Z) None (Some "item") embedder)
  = Raise AssertionError.
Proof. reflexivity. Qed.

End Examples.
